(** * labor_exchange: the job routes and the authentication dependency

    A shallow embedding of [api/routers/job_router.py] and
    [applications/dependencies/user.py].  Handlers are functions in a
    state-and-exception monad over the request-scoped database session;
    the parts of the repository that the two files import but that are
    defined elsewhere (the job repository, the user query, the schemas)
    are modelled from the specification and marked as such; the token
    codec and the bearer dependency are parameters. *)

From stdpp Require Import gmap strings list pretty.

Local Open Scope Z_scope.
Local Open Scope string_scope.

(** ** Data model *)

(** [models.User]: the ORM record read by the authentication dependency. *)
Module User.
Record t : Type := Build {
  id : Z;
  name : string;
  email : string;
  is_company : bool;
  hashed_password : string;
}.
End User.

(** [models.Job]: a row of the [jobs] table.  [user_id] is the foreign key
    to the owning user; Python compares it with [==] against an integer,
    so a missing value ([None]) is kept representable. *)
Module Job.
Record t : Type := Build {
  id : Z;
  user_id : option Z;
  title : string;
  description : string;
  salary_from : Z;
  salary_to : Z;
  is_active : bool;
}.
End Job.

(** Modelled from the spec: [domain.dm_schemas.DMJob] is imported by the
    router but declared elsewhere.  The edit handler builds it from the
    keywords [id], [title], [description], [salary_from], [salary_to] and
    [is_active] only, so [id] and [user_id] are optional fields. *)
Module DMJob.
Record t : Type := Build {
  id : option Z;
  user_id : option Z;
  title : string;
  description : string;
  salary_from : Z;
  salary_to : Z;
  is_active : bool;
}.
End DMJob.

(** Modelled from the spec: [api.schemas.job_schemas.SJob] is the request
    body of POST and PUT and the response model of the job routes.  The
    body carries the job fields; the response also carries the generated
    identifier, so the identifier and the owner are optional on input. *)
Module SJob.
Record t : Type := Build {
  id : option Z;
  user_id : option Z;
  title : string;
  description : string;
  salary_from : Z;
  salary_to : Z;
  is_active : bool;
}.

(** [SJob.from_orm]: field-by-field copy of a persisted row. *)
Definition from_orm (row : Job.t) : t :=
  {| id := Some (Job.id row);
     user_id := Job.user_id row;
     title := Job.title row;
     description := Job.description row;
     salary_from := Job.salary_from row;
     salary_to := Job.salary_to row;
     is_active := Job.is_active row |}.
End SJob.

(** Modelled from the spec: [SRemoveJobReport] is the [{id, message}]
    response of DELETE. *)
Module SRemoveJobReport.
Record t : Type := Build {
  id : Z;
  message : string;
}.
End SRemoveJobReport.

(** ** The database session *)

(** The request-scoped [AsyncSession]: the [users] table (never written by
    these routes), the [jobs] table keyed by primary key, and the sequence
    that generates job identifiers. *)
Record Session : Type := mkSession {
  users : list User.t;
  jobs : gmap Z Job.t;
  next_id : Z;
}.

(** ** Exceptions and the handler monad *)

(** What a handler can raise: [fastapi.HTTPException], which the framework
    turns into a response with that status, or an [AttributeError] from an
    attribute access on [None], which nothing in the routes catches. *)
Inductive exn : Type :=
| HTTPException (status_code : Z) (detail : string)
| AttributeError (obj attr : string).

Inductive result (A : Type) : Type :=
| Return (a : A)
| Raise (e : exn).
Arguments Return {A} a.
Arguments Raise {A} e.

(** A coroutine run against a session: its outcome and the session after. *)
Definition M (A : Type) : Type := Session → result A * Session.

#[global] Instance M_ret : MRet M := λ A a db, (Return a, db).

#[global] Instance M_bind : MBind M := λ A B f m db,
  match m db with
  | (Return a, db') => f a db'
  | (Raise e, db') => (Raise e, db')
  end.

Definition raise {A : Type} (e : exn) : M A := λ db, (Raise e, db).

(** [status.HTTP_*] constants used by the two files. *)
Definition HTTP_400_BAD_REQUEST : Z := 400.
Definition HTTP_403_FORBIDDEN : Z := 403.
Definition HTTP_405_METHOD_NOT_ALLOWED : Z := 405.

(** The status the framework answers with: 200 for a returned value, the
    exception's status for an [HTTPException], 500 for anything else. *)
Definition status_of {A : Type} (r : result A) : Z :=
  match r with
  | Return _ => 200
  | Raise (HTTPException c _) => c
  | Raise (AttributeError _ _) => 500
  end.

(** Python's [==] between a nullable integer column and an integer. *)
Definition py_eq (x : option Z) (y : Z) : bool :=
  match x with
  | Some v => bool_decide (v = y)
  | None => false
  end.

(** [obj.user_id] where [obj] is a row or [None]. *)
Definition getattr_user_id (obj : option Job.t) : M (option Z) :=
  match obj with
  | Some row => mret (Job.user_id row)
  | None => raise (AttributeError "NoneType" "user_id")
  end.

(** ** The job repository *)

(** Modelled from the spec: [infrastructure.repos.RepoJob] is imported by
    the router but defined elsewhere.  Each operation follows the
    repository contract: [add] inserts a new record and returns the
    persisted representation with its generated identifier; [get_all]
    returns every row; [get_by_id] looks a row up and yields the absent
    value when none matches; [update] overwrites title, description, the
    salary range and [is_active] of the row matching the identifier and
    returns the updated record; [del_by_id] removes the row and returns
    the identifier removed. *)
Module RepoJob.

Definition add (job : DMJob.t) : M Job.t := λ db,
  let row :=
    {| Job.id := next_id db;
       Job.user_id := DMJob.user_id job;
       Job.title := DMJob.title job;
       Job.description := DMJob.description job;
       Job.salary_from := DMJob.salary_from job;
       Job.salary_to := DMJob.salary_to job;
       Job.is_active := DMJob.is_active job |} in
  (Return row,
   {| users := users db;
      jobs := <[next_id db := row]> (jobs db);
      next_id := next_id db + 1 |}).

Definition get_all : M (list Job.t) := λ db,
  (Return (map_to_list (jobs db)).*2, db).

Definition get_by_id (job_id : Z) : M (option Job.t) := λ db,
  (Return (jobs db !! job_id), db).

Definition update (job : DMJob.t) : M (option Job.t) := λ db,
  match DMJob.id job with
  | None => (Return None, db)
  | Some job_id =>
      match jobs db !! job_id with
      | None => (Return None, db)
      | Some old =>
          let row :=
            {| Job.id := Job.id old;
               Job.user_id := Job.user_id old;
               Job.title := DMJob.title job;
               Job.description := DMJob.description job;
               Job.salary_from := DMJob.salary_from job;
               Job.salary_to := DMJob.salary_to job;
               Job.is_active := DMJob.is_active job |} in
          (Return (Some row),
           {| users := users db;
              jobs := <[job_id := row]> (jobs db);
              next_id := next_id db |})
      end
  end.

Definition del_by_id (job_id : Z) : M Z := λ db,
  (Return job_id,
   {| users := users db;
      jobs := delete job_id (jobs db);
      next_id := next_id db |}).

End RepoJob.

(** Modelled from the spec: [applications.queries.job_queries.
    convert_job_schema_to_dm] is called by [place_job] with the current
    user's id and the request body; it builds the domain object owned by
    that user from the body's job fields.  The identifier is left to the
    store. *)
Definition convert_job_schema_to_dm (user_id : Z) (job : SJob.t) : DMJob.t :=
  {| DMJob.id := None;
     DMJob.user_id := Some user_id;
     DMJob.title := SJob.title job;
     DMJob.description := SJob.description job;
     DMJob.salary_from := SJob.salary_from job;
     DMJob.salary_to := SJob.salary_to job;
     DMJob.is_active := SJob.is_active job |}.

(** [SJob.from_orm] applied to the result of [update], which is a row or
    the absent value.  [edit_job] calls [update] only after [get_by_id]
    found the row in the same session, so the absent case is never
    reached from it ([edit_job_update_found] below). *)
Definition from_orm_result (obj : option Job.t) : M SJob.t :=
  match obj with
  | Some row => mret (SJob.from_orm row)
  | None => raise (AttributeError "NoneType" "id")
  end.

(** ** The user query and the token codec *)

(** Modelled from the spec: [user_queries.get_by_email] fetches the user
    whose email field equals the input exactly, or the absent value. *)
Module user_queries.
Definition get_by_email (email : string) : M (option User.t) := λ db,
  (Return (List.find (λ u, bool_decide (User.email u = email)) (users db)), db).
End user_queries.

(** The decoded token payload: a dictionary of claims. *)
Abbreviation payload := (gmap string string).

Section Routes.

(** [core.security.decode_token] is imported by [user.py] but defined
    elsewhere: it is a parameter.  Its type is its contract: from a token
    string to a payload, or to the absent value for a token that is
    malformed, badly signed or expired; it does not raise. *)
Variable decode_token : string → option payload.

(** [core.security.JWTBearer] is imported by [user.py] but defined
    elsewhere: it is a parameter.  [Depends(JWTBearer())] is run on the
    request before [get_current_user]; what it reads there is the
    Authorization header, which a request may lack, and it hands on the
    token string or raises an exception of its own. *)
Variable JWTBearer : option string → result string.

(** ** The authentication dependency (applications/dependencies/user.py) *)

Definition cred_exception : exn :=
  HTTPException HTTP_403_FORBIDDEN "Credentials не валидны".

Definition get_current_user (token : string) : M User.t :=
  match decode_token token with
  | None => raise cred_exception
  | Some payload =>
      match payload !! "sub" with
      | None => raise cred_exception
      | Some email =>
          user ← user_queries.get_by_email email;
          match user with
          | None => raise cred_exception
          | Some user => mret user
          end
      end
  end.

(** ** The route handlers (api/routers/job_router.py) *)

Definition place_job (job_in_schema : SJob.t) (current_user : User.t)
  : M SJob.t :=
  if User.is_company current_user then
    let job_dm := convert_job_schema_to_dm (User.id current_user) job_in_schema in
    res ← RepoJob.add job_dm;
    mret (SJob.from_orm res)
  else
    let msg := "Пользователю " +:+ User.name current_user
               +:+ ", не являющемуся компанией, не разрешено создавать вакансии" in
    raise (HTTPException HTTP_405_METHOD_NOT_ALLOWED msg).

Definition read_vacancies : M (list SJob.t) :=
  orm_objs ← RepoJob.get_all;
  mret (SJob.from_orm <$> orm_objs).

Definition edit_job (job_id : Z) (job_in_schema : SJob.t)
    (current_user : User.t) : M SJob.t :=
  job_to_edit ← RepoJob.get_by_id job_id;
  owner ← getattr_user_id job_to_edit;
  if py_eq owner (User.id current_user) then
    let job_schema :=
      {| DMJob.id := Some job_id;
         DMJob.user_id := None;
         DMJob.title := SJob.title job_in_schema;
         DMJob.description := SJob.description job_in_schema;
         DMJob.salary_from := SJob.salary_from job_in_schema;
         DMJob.salary_to := SJob.salary_to job_in_schema;
         DMJob.is_active := SJob.is_active job_in_schema |} in
    updated_job ← RepoJob.update job_schema;
    from_orm_result updated_job
  else
    let msg := "Пользователь " +:+ User.name current_user
               +:+ " не является автором вакансии " +:+ pretty job_id
               +:+ ", поэтому не может ее редактировать" in
    raise (HTTPException HTTP_405_METHOD_NOT_ALLOWED msg).

Definition delete_job (job_id : Z) (current_user : User.t)
  : M SRemoveJobReport.t :=
  job_to_del ← RepoJob.get_by_id job_id;
  (* [a and b]: [b] is evaluated only when [a] is true *)
  allowed ← (if User.is_company current_user then
               owner ← getattr_user_id job_to_del;
               mret (py_eq owner (User.id current_user))
             else mret false);
  if (allowed : bool) then
    result ← RepoJob.del_by_id job_id;
    mret {| SRemoveJobReport.id := job_id;
            SRemoveJobReport.message := "Вакансия " +:+ pretty result +:+ " удалена" |}
  else
    let msg := "Вакансия " +:+ pretty job_id
               +:+ " не была удалена; либо она не найдена, либо удаляющий пользователь "
               +:+ User.name current_user +:+ " не является ее автором" in
    raise (HTTPException HTTP_400_BAD_REQUEST msg).

(** ** The router: which dependencies each route declares *)

(** A request as the routes see it once FastAPI has parsed the path
    parameter to an [int] and the body to an [SJob]: the Authorization
    header, if any, and the handler's arguments.  A request whose path
    parameter or body does not validate is answered by the framework
    itself and is not a value of this type. *)
Inductive request : Type :=
| POST_job (authorization : option string) (body : SJob.t)
| GET_jobs (authorization : option string)
| PUT_job (authorization : option string) (job_id : Z) (body : SJob.t)
| DELETE_job (authorization : option string) (job_id : Z).

Inductive response : Type :=
| RespJob (job : SJob.t)
| RespJobs (jobs : list SJob.t)
| RespReport (report : SRemoveJobReport.t).

(** [Depends(get_current_user)]: the framework first resolves the
    dependency's own [token: str = Depends(JWTBearer())]; an exception
    raised there propagates and [get_current_user] is not called. *)
Definition Depends_get_current_user (authorization : option string)
  : M User.t :=
  match JWTBearer authorization with
  | Return token => get_current_user token
  | Raise e => raise e
  end.

(** [place_job], [edit_job] and [delete_job] declare
    [Depends(get_current_user)]; [read_vacancies] declares only
    [Depends(get_db)], so the Authorization header of the request is
    never looked at. *)
Definition router (req : request) : M response :=
  match req with
  | POST_job authorization body =>
      current_user ← Depends_get_current_user authorization;
      job ← place_job body current_user;
      mret (RespJob job)
  | GET_jobs _ =>
      result ← read_vacancies;
      mret (RespJobs result)
  | PUT_job authorization job_id body =>
      current_user ← Depends_get_current_user authorization;
      job ← edit_job job_id body current_user;
      mret (RespJob job)
  | DELETE_job authorization job_id =>
      current_user ← Depends_get_current_user authorization;
      report ← delete_job job_id current_user;
      mret (RespReport report)
  end.

(** ** Predicates used by the statements *)

(** The three ways [get_current_user] finds a token wanting: it does not
    decode, its payload has no subject, its subject is no user's email. *)
Definition auth_failure (token : string) (db : Session) : Prop :=
  decode_token token = None
  ∨ (∃ p, decode_token token = Some p ∧ p !! "sub" = None)
  ∨ (∃ p e, decode_token token = Some p ∧ p !! "sub" = Some e
            ∧ ∀ u, u ∈ users db → User.email u ≠ e).

(** The subject claim of a token, when it decodes and has one. *)
Definition subject (token : string) : option string :=
  decode_token token ≫= (λ p, p !! "sub").

(** The row that holds the job fields of a request body under a given
    identifier and owner. *)
Definition stored (job_id : Z) (owner : option Z) (body : SJob.t) : Job.t :=
  {| Job.id := job_id;
     Job.user_id := owner;
     Job.title := SJob.title body;
     Job.description := SJob.description body;
     Job.salary_from := SJob.salary_from body;
     Job.salary_to := SJob.salary_to body;
     Job.is_active := SJob.is_active body |}.

(** Primary keys: a row sits under its own identifier, and the sequence is
    ahead of every identifier in use. *)
Definition wf (db : Session) : Prop :=
  ∀ k row, jobs db !! k = Some row → Job.id row = k ∧ k < next_id db.

(** Every persisted job is owned by a user of the [users] table who is a
    company.  The routes never write [users], so a user who is a company
    when a job is created is one for as long as the job exists. *)
Definition owner_inv (db : Session) : Prop :=
  ∀ k row, jobs db !! k = Some row →
    ∃ u, u ∈ users db ∧ Job.user_id row = Some (User.id u)
         ∧ User.is_company u = true.

(** The message of each rejection, as the handlers format it. *)
Definition place_job_detail (u : User.t) : string :=
  "Пользователю " +:+ User.name u
  +:+ ", не являющемуся компанией, не разрешено создавать вакансии".

Definition edit_job_detail (u : User.t) (job_id : Z) : string :=
  "Пользователь " +:+ User.name u +:+ " не является автором вакансии "
  +:+ pretty job_id +:+ ", поэтому не может ее редактировать".

Definition delete_job_detail (u : User.t) (job_id : Z) : string :=
  "Вакансия " +:+ pretty job_id
  +:+ " не была удалена; либо она не найдена, либо удаляющий пользователь "
  +:+ User.name u +:+ " не является ее автором".

(** ** A concrete session for examples *)

Definition company_a : User.t :=
  {| User.id := 1; User.name := "A"; User.email := "a@corp.example";
     User.is_company := true; User.hashed_password := "x" |}.

Definition person_b : User.t :=
  {| User.id := 2; User.name := "B"; User.email := "b@mail.example";
     User.is_company := false; User.hashed_password := "y" |}.

Definition backend_engineer : SJob.t :=
  {| SJob.id := None; SJob.user_id := Some 2; SJob.title := "Backend Engineer";
     SJob.description := "Python"; SJob.salary_from := 100000;
     SJob.salary_to := 150000; SJob.is_active := true |}.

(** The same job with [is_active] switched off, as a PUT body. *)
Definition edited_body : SJob.t :=
  {| SJob.id := None; SJob.user_id := None; SJob.title := "Backend Engineer";
     SJob.description := "Python"; SJob.salary_from := 100000;
     SJob.salary_to := 150000; SJob.is_active := false |}.

Definition job7 : Job.t := stored 7 (Some 1) backend_engineer.

Definition sample_db : Session :=
  {| users := [company_a; person_b]; jobs := {[ 7 := job7 ]}; next_id := 8 |}.

(** A stand-in codec: two well-signed tokens, one signed token whose
    payload has no subject, one whose subject is nobody's email. *)
Definition sample_decode (token : string) : option payload :=
  if bool_decide (token = "tok-a") then Some {[ "sub" := "a@corp.example" ]}
  else if bool_decide (token = "tok-b") then Some {[ "sub" := "b@mail.example" ]}
  else if bool_decide (token = "tok-nosub") then Some {[ "exp" := "1" ]}
  else if bool_decide (token = "tok-ghost") then Some {[ "sub" := "ghost@example" ]}
  else None.

(** A job owned by the user who is not a company, and a session holding
    it next to job 7. *)
Definition job9 : Job.t := stored 9 (Some 2) backend_engineer.

Definition sample_db2 : Session :=
  {| users := [company_a; person_b];
     jobs := <[ 9 := job9 ]> {[ 7 := job7 ]};
     next_id := 10 |}.

(** A stand-in bearer dependency: the header's credentials are the
    token; a request without the header is refused. *)
Definition sample_bearer (authorization : option string) : result string :=
  match authorization with
  | Some token => Return token
  | None => Raise (HTTPException 403 "Not authenticated")
  end.

(** A codec that also knows a second token of user A, issued later. *)
Definition sample_decode2 (token : string) : option payload :=
  if bool_decide (token = "tok-a2")
  then Some (<[ "exp" := "2" ]> {[ "sub" := "a@corp.example" ]})
  else sample_decode token.

(** ** Running the monad *)

Lemma bind_Return {A B} (m : M A) (f : A → M B) db a db' :
  m db = (Return a, db') → (m ≫= f) db = f a db'.
Proof. intros E. unfold mbind, M_bind. by rewrite E. Qed.

Lemma bind_Raise {A B} (m : M A) (f : A → M B) db e db' :
  m db = (Raise e, db') → (m ≫= f) db = (Raise e, db').
Proof. intros E. unfold mbind, M_bind. by rewrite E. Qed.

(** Unfold one handler down to matches on the session. *)
Ltac run :=
  unfold RepoJob.add, RepoJob.get_all, RepoJob.get_by_id, RepoJob.update,
    RepoJob.del_by_id, user_queries.get_by_email, getattr_user_id,
    from_orm_result, raise, mbind, M_bind, mret, M_ret; simpl.

Lemma py_eq_true owner uid : py_eq owner uid = true ↔ owner = Some uid.
Proof.
  destruct owner as [v|]; simpl; [|done].
  rewrite bool_decide_eq_true. split; congruence.
Qed.

Lemma py_eq_false owner uid : py_eq owner uid = false ↔ owner ≠ Some uid.
Proof.
  rewrite <- py_eq_true. destruct (py_eq owner uid); split; congruence.
Qed.

(** ** The user query *)

Lemma get_by_email_Some email db u :
  user_queries.get_by_email email db = (Return (Some u), db) →
  u ∈ users db ∧ User.email u = email.
Proof.
  unfold user_queries.get_by_email. intros [= E].
  apply find_some in E as [Hin Heq].
  split; [by apply list_elem_of_In | by apply bool_decide_eq_true in Heq].
Qed.

Lemma get_by_email_None email db :
  user_queries.get_by_email email db = (Return None, db) ↔
  ∀ u, u ∈ users db → User.email u ≠ email.
Proof.
  unfold user_queries.get_by_email. split.
  - intros [= E] u Hin Heq.
    apply list_elem_of_In in Hin. apply (find_none _ _ E u) in Hin.
    apply bool_decide_eq_false in Hin. done.
  - intros Hno. f_equal. f_equal.
    destruct (find _ _) as [u|] eqn:E; [|done].
    apply find_some in E as [Hin Heq].
    apply bool_decide_eq_true in Heq. apply list_elem_of_In in Hin.
    by destruct (Hno u Hin).
Qed.

Lemma get_by_email_session email db :
  snd (user_queries.get_by_email email db) = db.
Proof. done. Qed.

(** ** The authentication dependency *)

(** [get_current_user] only reads the session. *)
Lemma get_current_user_session token db :
  snd (get_current_user token db) = db.
Proof.
  unfold get_current_user.
  destruct (decode_token token) as [p|]; [|done].
  destruct (p !! "sub") as [e|]; [|done].
  run. by destruct (find _ _).
Qed.

(** It raises nothing but the credentials exception. *)
Lemma get_current_user_Raise token db e :
  fst (get_current_user token db) = Raise e → e = cred_exception.
Proof.
  unfold get_current_user.
  destruct (decode_token token) as [p|]; [|by intros [= <-]].
  destruct (p !! "sub") as [s|]; [|by intros [= <-]].
  run. destruct (find _ _); [done | by intros [= <-]].
Qed.

(** A user it returns is a row of [users] whose email is the subject. *)
Lemma get_current_user_Return token db u :
  fst (get_current_user token db) = Return u →
  u ∈ users db ∧ subject token = Some (User.email u).
Proof.
  unfold get_current_user, subject.
  destruct (decode_token token) as [p|]; [|done]. simpl.
  destruct (p !! "sub") as [s|]; [|done].
  destruct (user_queries.get_by_email s db) as [[[v|]|] db1] eqn:E.
  - rewrite (bind_Return _ _ _ _ _ E). intros [= ->].
    pose proof (get_by_email_session s db) as Hs. rewrite E in Hs. simpl in Hs.
    subst db1. apply get_by_email_Some in E as [? ->]. done.
  - by rewrite (bind_Return _ _ _ _ _ E).
  - by rewrite (bind_Raise _ _ _ _ _ E).
Qed.

(** Any of the three failures ends in the credentials exception. *)
Lemma get_current_user_rejects token db :
  auth_failure token db → get_current_user token db = (Raise cred_exception, db).
Proof.
  intros [E | [(p & E & Hsub) | (p & e & E & Hsub & Hno)]];
    unfold get_current_user; rewrite ?E, ?Hsub; try done.
  apply get_by_email_None in Hno.
  by rewrite (bind_Return _ _ _ _ _ Hno).
Qed.

(** Every run either raises the credentials exception or returns a user
    of the table; the session is the same afterwards. *)
Lemma get_current_user_run token db :
  get_current_user token db = (Raise cred_exception, db)
  ∨ ∃ u, get_current_user token db = (Return u, db)
         ∧ u ∈ users db ∧ subject token = Some (User.email u).
Proof.
  pose proof (get_current_user_session token db) as Hs.
  destruct (get_current_user token db) as [[u|e] db1] eqn:E; simpl in Hs; subst db1.
  - right. exists u. split; [done|].
    apply get_current_user_Return. by rewrite E.
  - left. f_equal. f_equal. apply (get_current_user_Raise token db). by rewrite E.
Qed.

(** The dependency as the routes use it: the bearer step, then
    [get_current_user].  Either it raises and the session is as before,
    or it returns a user of the table that the token resolved to. *)
Lemma Depends_run authorization db :
  (∃ e, Depends_get_current_user authorization db = (Raise e, db))
  ∨ ∃ token u,
      JWTBearer authorization = Return token
      ∧ get_current_user token db = (Return u, db)
      ∧ Depends_get_current_user authorization db = (Return u, db)
      ∧ u ∈ users db ∧ subject token = Some (User.email u).
Proof.
  unfold Depends_get_current_user.
  destruct (JWTBearer authorization) as [token|e]; [|left; by exists e].
  destruct (get_current_user_run token db) as [Hr | (u & Hu & Hin & Hsub)].
  - left. by exists cred_exception.
  - right. by exists token, u.
Qed.


(** ** Creating a job *)

(** C3: a POST by a user who is not a company raises HTTP 405 with a
    message built around the user's name and leaves the session -- the
    jobs store included -- as it was; a POST by a company inserts the job
    under the generated identifier and returns its persisted
    representation. *)
Theorem place_job_company_gate (body : SJob.t) (u : User.t) (db : Session) :
  (User.is_company u = false →
     place_job body u db = (Raise (HTTPException 405 (place_job_detail u)), db)
     ∧ jobs (snd (place_job body u db)) = jobs db)
  ∧ (User.is_company u = true →
     place_job body u db
     = (Return (SJob.from_orm (stored (next_id db) (Some (User.id u)) body)),
        {| users := users db;
           jobs := <[next_id db := stored (next_id db) (Some (User.id u)) body]> (jobs db);
           next_id := next_id db + 1 |})
     ∧ status_of (fst (place_job body u db)) = 200).
Proof.
  unfold place_job. split; intros ->; [done|].
  by run.
Qed.

(** Under [wf] the generated identifier is new: no earlier row is lost or
    changed by [place_job]. *)
Lemma place_job_keeps_rows body u db k row :
  wf db → jobs db !! k = Some row →
  jobs (snd (place_job body u db)) !! k = Some row.
Proof.
  intros Hwf Hk. unfold place_job. destruct (User.is_company u); [|done].
  run. rewrite lookup_insert_ne; [done|].
  destruct (Hwf k row Hk) as [_ Hlt]. lia.
Qed.

(** ** Editing a job *)

Lemma edit_job_found job_id body u db old :
  jobs db !! job_id = Some old →
  edit_job job_id body u db
  = if py_eq (Job.user_id old) (User.id u)
    then (Return (SJob.from_orm (stored (Job.id old) (Job.user_id old) body)),
          {| users := users db;
             jobs := <[job_id := stored (Job.id old) (Job.user_id old) body]> (jobs db);
             next_id := next_id db |})
    else (Raise (HTTPException 405 (edit_job_detail u job_id)), db).
Proof.
  intros Hold. unfold edit_job. run. rewrite Hold. simpl.
  destruct (py_eq _ _); [|done]. simpl. by rewrite Hold.
Qed.

Lemma edit_job_absent job_id body u db :
  jobs db !! job_id = None →
  edit_job job_id body u db = (Raise (AttributeError "NoneType" "user_id"), db).
Proof. intros Hno. unfold edit_job. run. by rewrite Hno. Qed.

(** The update inside [edit_job] always finds its row. *)
Lemma edit_job_update_found job_id body u db :
  fst (edit_job job_id body u db) ≠ Raise (AttributeError "NoneType" "id").
Proof.
  destruct (jobs db !! job_id) as [old|] eqn:Hold.
  - rewrite (edit_job_found _ _ _ _ _ Hold). by destruct (py_eq _ _).
  - by rewrite (edit_job_absent _ _ _ _ Hold).
Qed.

(** C4: when the persisted job's [user_id] differs from the current user's
    id, PUT raises HTTP 405 with a message built around the user's name and
    the job id, and the session is unchanged; when it equals the user's id
    the row is updated and the updated record is returned with status 200. *)
Theorem edit_job_owner_gate (job_id : Z) (body : SJob.t) (u : User.t)
    (db : Session) (old : Job.t) :
  jobs db !! job_id = Some old →
  (Job.user_id old ≠ Some (User.id u) →
     edit_job job_id body u db
     = (Raise (HTTPException 405 (edit_job_detail u job_id)), db)
     ∧ jobs (snd (edit_job job_id body u db)) !! job_id = Some old)
  ∧ (Job.user_id old = Some (User.id u) →
     edit_job job_id body u db
     = (Return (SJob.from_orm (stored (Job.id old) (Some (User.id u)) body)),
        {| users := users db;
           jobs := <[job_id := stored (Job.id old) (Some (User.id u)) body]> (jobs db);
           next_id := next_id db |})
     ∧ status_of (fst (edit_job job_id body u db)) = 200).
Proof.
  intros Hold. rewrite (edit_job_found _ _ _ _ _ Hold). split.
  - intros Hne. apply py_eq_false in Hne. by rewrite Hne.
  - intros Heq. rewrite <- Heq.
    assert (py_eq (Job.user_id old) (User.id u) = true) as -> by by apply py_eq_true.
    done.
Qed.

(** C7: a successful edit overwrites only title, description, salary_from,
    salary_to and is_active of the row under the given identifier; that
    row keeps its id and its user_id, every other row is untouched, and
    so are the users table and the identifier sequence. *)
Theorem edit_job_frame (job_id : Z) (body : SJob.t) (u : User.t)
    (db db' : Session) (s : SJob.t) :
  edit_job job_id body u db = (Return s, db') →
  ∃ old row,
    jobs db !! job_id = Some old ∧ jobs db' !! job_id = Some row
    ∧ Job.id row = Job.id old ∧ Job.user_id row = Job.user_id old
    ∧ Job.title row = SJob.title body
    ∧ Job.description row = SJob.description body
    ∧ Job.salary_from row = SJob.salary_from body
    ∧ Job.salary_to row = SJob.salary_to body
    ∧ Job.is_active row = SJob.is_active body
    ∧ (∀ k, k ≠ job_id → jobs db' !! k = jobs db !! k)
    ∧ users db' = users db ∧ next_id db' = next_id db.
Proof.
  destruct (jobs db !! job_id) as [old|] eqn:Hold.
  - rewrite (edit_job_found _ _ _ _ _ Hold).
    destruct (py_eq _ _); [|done]. intros [= <- <-]. simpl.
    exists old, (stored (Job.id old) (Job.user_id old) body).
    rewrite lookup_insert_eq. split_and!; try done.
    intros k Hk. by rewrite lookup_insert_ne.
  - by rewrite (edit_job_absent _ _ _ _ Hold).
Qed.

(** ** Deleting a job *)

Lemma delete_job_found job_id u db old :
  jobs db !! job_id = Some old →
  delete_job job_id u db
  = if User.is_company u && py_eq (Job.user_id old) (User.id u)
    then (Return {| SRemoveJobReport.id := job_id;
                    SRemoveJobReport.message :=
                      "Вакансия " +:+ pretty job_id +:+ " удалена" |},
          {| users := users db;
             jobs := delete job_id (jobs db);
             next_id := next_id db |})
    else (Raise (HTTPException 400 (delete_job_detail u job_id)), db).
Proof.
  intros Hold. unfold delete_job. run. rewrite Hold.
  destruct (User.is_company u); simpl; [|done].
  by destruct (py_eq _ _).
Qed.

Lemma delete_job_absent job_id u db :
  jobs db !! job_id = None →
  delete_job job_id u db
  = if User.is_company u
    then (Raise (AttributeError "NoneType" "user_id"), db)
    else (Raise (HTTPException 400 (delete_job_detail u job_id)), db).
Proof.
  intros Hno. unfold delete_job. run. rewrite Hno.
  by destruct (User.is_company u).
Qed.

(** C2 (as amended): when [job_id] matches no persisted job, PUT always,
    and DELETE for a company user, run into the attribute access on the
    absent value, which propagates as an unhandled fault (status 500);
    DELETE for a user who is not a company never evaluates that access
    and raises HTTP 400.  None of them answers 404, and the session is
    unchanged. *)
Theorem absent_job_unguarded (job_id : Z) (body : SJob.t) (u : User.t)
    (db : Session) :
  jobs db !! job_id = None →
  edit_job job_id body u db = (Raise (AttributeError "NoneType" "user_id"), db)
  ∧ (User.is_company u = true →
     delete_job job_id u db = (Raise (AttributeError "NoneType" "user_id"), db))
  ∧ (User.is_company u = false →
     delete_job job_id u db
     = (Raise (HTTPException 400 (delete_job_detail u job_id)), db))
  ∧ status_of (fst (edit_job job_id body u db)) = 500
  ∧ status_of (fst (delete_job job_id u db)) ≠ 404.
Proof.
  intros Hno.
  rewrite (edit_job_absent _ _ _ _ Hno), (delete_job_absent _ _ _ Hno).
  split_and!; try done; try by intros ->.
  by destruct (User.is_company u).
Qed.

(** C5: DELETE by a company user who owns the job returns, with status
    200, the report [{id = job_id; message = "Вакансия <job_id> удалена"}];
    afterwards the row is gone and every other row is as before. *)
Theorem delete_job_by_owner (job_id : Z) (u : User.t) (db : Session)
    (old : Job.t) :
  jobs db !! job_id = Some old →
  User.is_company u = true →
  Job.user_id old = Some (User.id u) →
  fst (delete_job job_id u db)
  = Return {| SRemoveJobReport.id := job_id;
              SRemoveJobReport.message :=
                "Вакансия " +:+ pretty job_id +:+ " удалена" |}
  ∧ status_of (fst (delete_job job_id u db)) = 200
  ∧ jobs (snd (delete_job job_id u db)) !! job_id = None
  ∧ (∀ k, k ≠ job_id →
       jobs (snd (delete_job job_id u db)) !! k = jobs db !! k).
Proof.
  intros Hold Hc Hown. rewrite (delete_job_found _ _ _ _ Hold), Hc.
  apply py_eq_true in Hown. rewrite Hown. simpl.
  split_and!; try done.
  - apply lookup_delete_eq.
  - intros k Hk. by apply lookup_delete_ne.
Qed.


(** ** Reading back what was added *)

(** C10: for the job that POST builds from a request body, [get_by_id]
    with the generated identifier right after [add] returns the very
    record [add] returned, and that record has the owner and every job
    field of the job that was inserted. *)
Theorem get_by_id_after_add (body : SJob.t) (u : User.t) (db db' : Session)
    (row : Job.t) :
  RepoJob.add (convert_job_schema_to_dm (User.id u) body) db = (Return row, db') →
  RepoJob.get_by_id (Job.id row) db' = (Return (Some row), db')
  ∧ Job.user_id row = Some (User.id u)
  ∧ Job.title row = SJob.title body
  ∧ Job.description row = SJob.description body
  ∧ Job.salary_from row = SJob.salary_from body
  ∧ Job.salary_to row = SJob.salary_to body
  ∧ Job.is_active row = SJob.is_active body
  ∧ place_job body u db
    = (if User.is_company u then (Return (SJob.from_orm row), db')
       else (Raise (HTTPException 405 (place_job_detail u)), db)).
Proof.
  unfold RepoJob.add, RepoJob.get_by_id. intros [= <- <-]. simpl.
  rewrite lookup_insert_eq. split_and!; try done.
  unfold place_job. by destruct (User.is_company u).
Qed.

(** ** The router *)

(** A protected route whose dependency fails never reaches its handler. *)
Lemma router_POST_rejects authorization body db e :
  Depends_get_current_user authorization db = (Raise e, db) →
  router (POST_job authorization body) db = (Raise e, db).
Proof. intros Hr. unfold router. by rewrite (bind_Raise _ _ _ _ _ Hr). Qed.

Lemma router_PUT_rejects authorization job_id body db e :
  Depends_get_current_user authorization db = (Raise e, db) →
  router (PUT_job authorization job_id body) db = (Raise e, db).
Proof. intros Hr. unfold router. by rewrite (bind_Raise _ _ _ _ _ Hr). Qed.

Lemma router_DELETE_rejects authorization job_id db e :
  Depends_get_current_user authorization db = (Raise e, db) →
  router (DELETE_job authorization job_id) db = (Raise e, db).
Proof. intros Hr. unfold router. by rewrite (bind_Raise _ _ _ _ _ Hr). Qed.

Lemma router_POST authorization body db u :
  Depends_get_current_user authorization db = (Return u, db) →
  router (POST_job authorization body) db
  = match place_job body u db with
    | (Return job, db') => (Return (RespJob job), db')
    | (Raise e, db') => (Raise e, db')
    end.
Proof. intros Hu. unfold router. by rewrite (bind_Return _ _ _ _ _ Hu). Qed.

Lemma router_PUT authorization job_id body db u :
  Depends_get_current_user authorization db = (Return u, db) →
  router (PUT_job authorization job_id body) db
  = match edit_job job_id body u db with
    | (Return job, db') => (Return (RespJob job), db')
    | (Raise e, db') => (Raise e, db')
    end.
Proof. intros Hu. unfold router. by rewrite (bind_Return _ _ _ _ _ Hu). Qed.

Lemma router_DELETE authorization job_id db u :
  Depends_get_current_user authorization db = (Return u, db) →
  router (DELETE_job authorization job_id) db
  = match delete_job job_id u db with
    | (Return report, db') => (Return (RespReport report), db')
    | (Raise e, db') => (Raise e, db')
    end.
Proof. intros Hu. unfold router. by rewrite (bind_Return _ _ _ _ _ Hu). Qed.

Lemma router_GET authorization db :
  router (GET_jobs authorization) db
  = (Return (RespJobs (SJob.from_orm <$> (map_to_list (jobs db)).*2)), db).
Proof. done. Qed.

(** A token that [get_current_user] rejects is rejected by the dependency. *)
Lemma Depends_rejects authorization token db :
  JWTBearer authorization = Return token → auth_failure token db →
  Depends_get_current_user authorization db = (Raise cred_exception, db).
Proof.
  intros Hb Hfail. unfold Depends_get_current_user. rewrite Hb.
  by apply get_current_user_rejects.
Qed.

(** C8: GET /job/jobs declares no authentication dependency: whatever the
    Authorization header, present or not, it returns a list that holds
    exactly the persisted rows (one entry per row, no filter, no page),
    and leaves the session alone -- also for credentials with which POST,
    PUT and DELETE are refused: with 403 when [get_current_user] rejects
    the token, with the bearer dependency's own exception when that one
    does. *)
Theorem read_vacancies_public (authorization : option string) (db : Session) :
  ∃ l,
    router (GET_jobs authorization) db = (Return (RespJobs l), db)
    ∧ (∀ s, s ∈ l ↔ ∃ k row, jobs db !! k = Some row ∧ s = SJob.from_orm row)
    ∧ length l = size (jobs db)
    ∧ (∀ token, JWTBearer authorization = Return token →
         auth_failure token db → ∀ body job_id,
         status_of (fst (router (POST_job authorization body) db)) = 403
         ∧ status_of (fst (router (PUT_job authorization job_id body) db)) = 403
         ∧ status_of (fst (router (DELETE_job authorization job_id) db)) = 403)
    ∧ (∀ e, JWTBearer authorization = Raise e → ∀ body job_id,
         router (POST_job authorization body) db = (Raise e, db)
         ∧ router (PUT_job authorization job_id body) db = (Raise e, db)
         ∧ router (DELETE_job authorization job_id) db = (Raise e, db)).
Proof.
  exists (SJob.from_orm <$> (map_to_list (jobs db)).*2).
  split_and!.
  - apply router_GET.
  - intros s. rewrite list_elem_of_fmap. split.
    + intros (row & -> & Hrow). apply list_elem_of_fmap in Hrow as ([k r] & -> & Hkr).
      apply elem_of_map_to_list in Hkr. eauto.
    + intros (k & row & Hk & ->). exists row. split; [done|].
      apply list_elem_of_fmap. exists (k, row). split; [done|].
      by apply elem_of_map_to_list.
  - by rewrite !length_fmap, length_map_to_list.
  - intros token Hb Hfail body job_id.
    pose proof (Depends_rejects _ _ _ Hb Hfail) as Hr.
    by rewrite (router_POST_rejects _ _ _ _ Hr), (router_PUT_rejects _ _ _ _ _ Hr),
      (router_DELETE_rejects _ _ _ _ Hr).
  - intros e Hb body job_id.
    assert (Depends_get_current_user authorization db = (Raise e, db)) as Hr
      by (unfold Depends_get_current_user; by rewrite Hb).
    by rewrite (router_POST_rejects _ _ _ _ Hr), (router_PUT_rejects _ _ _ _ _ Hr),
      (router_DELETE_rejects _ _ _ _ Hr).
Qed.

(** ** The ownership invariant *)

Lemma place_job_owner_inv body u db :
  u ∈ users db → owner_inv db → owner_inv (snd (place_job body u db)).
Proof.
  intros Hin Hinv. unfold place_job.
  destruct (User.is_company u) eqn:Hc; [|done].
  run. intros k row. simpl. rewrite lookup_insert.
  case_decide as Hk; [|by apply Hinv].
  intros [= <-]. exists u. done.
Qed.

Lemma edit_job_owner_inv job_id body u db :
  owner_inv db → owner_inv (snd (edit_job job_id body u db)).
Proof.
  intros Hinv. destruct (jobs db !! job_id) as [old|] eqn:Hold.
  - rewrite (edit_job_found _ _ _ _ _ Hold).
    destruct (py_eq _ _); [|done]. intros k row. simpl. rewrite lookup_insert.
    case_decide as Hk; [|by apply Hinv].
    intros [= <-]. simpl. by apply (Hinv job_id old).
  - by rewrite (edit_job_absent _ _ _ _ Hold).
Qed.

Lemma delete_job_owner_inv job_id u db :
  owner_inv db → owner_inv (snd (delete_job job_id u db)).
Proof.
  intros Hinv. destruct (jobs db !! job_id) as [old|] eqn:Hold.
  - rewrite (delete_job_found _ _ _ _ Hold).
    destruct (_ && _); [|done]. intros k row. simpl. rewrite lookup_delete.
    case_decide; [done | by apply Hinv].
  - rewrite (delete_job_absent _ _ _ Hold). by destruct (User.is_company u).
Qed.

(** No handler writes the [users] table. *)
Lemma place_job_users body u db : users (snd (place_job body u db)) = users db.
Proof. unfold place_job. by destruct (User.is_company u). Qed.

Lemma edit_job_users job_id body u db :
  users (snd (edit_job job_id body u db)) = users db.
Proof.
  destruct (jobs db !! job_id) as [old|] eqn:Hold.
  - rewrite (edit_job_found _ _ _ _ _ Hold). by destruct (py_eq _ _).
  - by rewrite (edit_job_absent _ _ _ _ Hold).
Qed.

Lemma delete_job_users job_id u db :
  users (snd (delete_job job_id u db)) = users db.
Proof.
  destruct (jobs db !! job_id) as [old|] eqn:Hold.
  - rewrite (delete_job_found _ _ _ _ Hold). by destruct (_ && _).
  - rewrite (delete_job_absent _ _ _ Hold). by destruct (User.is_company u).
Qed.

Lemma snd_lift {A B} (f : A → B) (p : result A * Session) :
  snd (match p with
       | (Return a, db') => (Return (f a), db')
       | (Raise e, db') => (Raise e, db')
       end) = snd p.
Proof. by destruct p as [[?|?] ?]. Qed.

Lemma router_preserves req db :
  owner_inv db →
  owner_inv (snd (router req db)) ∧ users (snd (router req db)) = users db.
Proof.
  intros Hinv.
  destruct req as [auth body | auth | auth job_id body | auth job_id];
    [| done | |];
    destruct (Depends_run auth db) as [[e0 Hr] | (tk & u & _ & _ & Hu & Hin & _)].
  - by rewrite (router_POST_rejects _ _ _ _ Hr).
  - rewrite (router_POST _ _ _ _ Hu), snd_lift.
    split; [by apply place_job_owner_inv | apply place_job_users].
  - by rewrite (router_PUT_rejects _ _ _ _ _ Hr).
  - rewrite (router_PUT _ _ _ _ _ Hu), snd_lift.
    split; [by apply edit_job_owner_inv | apply edit_job_users].
  - by rewrite (router_DELETE_rejects _ _ _ _ Hr).
  - rewrite (router_DELETE _ _ _ _ Hu), snd_lift.
    split; [by apply delete_job_owner_inv | apply delete_job_users].
Qed.

(** C9: a job created through POST /job is owned by the user the token
    resolved to -- whatever owner the request body names -- and that user
    is a row of [users] with [is_company] true; hence every route keeps
    the invariant that each persisted job belongs to a company of the
    [users] table, a table no route writes. *)
Theorem created_job_owner (authorization : option string) (body : SJob.t)
    (db db' : Session) (s : SJob.t) :
  (router (POST_job authorization body) db = (Return (RespJob s), db') →
   ∃ token u,
     JWTBearer authorization = Return token
     ∧ get_current_user token db = (Return u, db)
     ∧ u ∈ users db ∧ User.is_company u = true
     ∧ subject token = Some (User.email u)
     ∧ SJob.user_id s = Some (User.id u)
     ∧ jobs db' !! next_id db
       = Some (stored (next_id db) (Some (User.id u)) body))
  ∧ (∀ req, owner_inv db →
       owner_inv (snd (router req db))
       ∧ users (snd (router req db)) = users db).
Proof.
  split; [|intros req; apply router_preserves].
  destruct (Depends_run authorization db)
    as [[e0 Hr] | (token & u & Hb & Hg & Hu & Hin & Hsub)].
  - by rewrite (router_POST_rejects _ _ _ _ Hr).
  - rewrite (router_POST _ _ _ _ Hu). unfold place_job.
    destruct (User.is_company u) eqn:Hc; [|done].
    run. intros [= <- <-]. exists token, u. simpl.
    rewrite lookup_insert_eq. done.
Qed.

(** ** Primary keys are kept *)

(** X12: every route keeps the primary keys in order: if each row is
    stored under its own identifier and the sequence is ahead of every
    identifier in use, the same holds after any request -- a POST takes
    the next identifier, a PUT writes back under the identifier it looked
    up, a DELETE only removes. *)
Lemma router_preserves_wf req db : wf db → wf (snd (router req db)).
Proof.
  intros Hwf.
  destruct req as [auth body | auth | auth job_id body | auth job_id];
    [| done | |];
    destruct (Depends_run auth db) as [[e0 Hr] | (tk & u & _ & _ & Hu & _)].
  - by rewrite (router_POST_rejects _ _ _ _ Hr).
  - rewrite (router_POST _ _ _ _ Hu), snd_lift. unfold place_job.
    destruct (User.is_company u); [|done]. run.
    intros k row. simpl. rewrite lookup_insert. case_decide as Hk.
    + intros [= <-]. simpl. split; [done | lia].
    + intros Hrow. destruct (Hwf k row Hrow). split; [done | lia].
  - by rewrite (router_PUT_rejects _ _ _ _ _ Hr).
  - rewrite (router_PUT _ _ _ _ _ Hu), snd_lift.
    destruct (jobs db !! job_id) as [old|] eqn:Hold.
    + rewrite (edit_job_found _ _ _ _ _ Hold). destruct (py_eq _ _); [|done].
      intros k row. simpl. rewrite lookup_insert. case_decide as Hk.
      * intros [= <-]. simpl. subst k. by apply Hwf.
      * by apply Hwf.
    + by rewrite (edit_job_absent _ _ _ _ Hold).
  - by rewrite (router_DELETE_rejects _ _ _ _ Hr).
  - rewrite (router_DELETE _ _ _ _ Hu), snd_lift.
    destruct (jobs db !! job_id) as [old|] eqn:Hold.
    + rewrite (delete_job_found _ _ _ _ Hold). destruct (_ && _); [|done].
      intros k row. simpl. rewrite lookup_delete. case_decide; [done|].
      by apply Hwf.
    + rewrite (delete_job_absent _ _ _ Hold). by destruct (User.is_company u).
Qed.

(** ** Further properties of the routes *)

Lemma fst_lift {A B} (f : A → B) (p : result A * Session) e :
  fst (match p with
       | (Return a, db') => (Return (f a), db')
       | (Raise e, db') => (Raise e, db')
       end) = Raise e ↔ fst p = Raise e.
Proof. destruct p as [[?|?] ?]; simpl; split; congruence. Qed.

Lemma status_lift {A B} (f : A → B) (p : result A * Session) :
  status_of (fst (match p with
                  | (Return a, db') => (Return (f a), db')
                  | (Raise e, db') => (Raise e, db')
                  end)) = status_of (fst p).
Proof. by destruct p as [[?|?] ?]. Qed.

(** The dependency reads nothing but the [users] table. *)
Lemma get_current_user_users token db1 db2 :
  users db1 = users db2 →
  fst (get_current_user token db1) = fst (get_current_user token db2).
Proof.
  intros Hu. unfold get_current_user.
  destruct (decode_token token) as [p|]; [|done].
  destruct (p !! "sub") as [e|]; [|done].
  run. rewrite Hu. by destruct (find _ _).
Qed.

Lemma Depends_users authorization db1 db2 :
  users db1 = users db2 →
  fst (Depends_get_current_user authorization db1)
  = fst (Depends_get_current_user authorization db2).
Proof.
  intros Hu. unfold Depends_get_current_user.
  destruct (JWTBearer authorization); [by apply get_current_user_users | done].
Qed.

Lemma router_users req db : users (snd (router req db)) = users db.
Proof.
  destruct req as [auth body | auth | auth job_id body | auth job_id];
    [| done | |];
    destruct (Depends_run auth db) as [[e0 Hr] | (tk & u & _ & _ & Hu & _)].
  - by rewrite (router_POST_rejects _ _ _ _ Hr).
  - rewrite (router_POST _ _ _ _ Hu), snd_lift. apply place_job_users.
  - by rewrite (router_PUT_rejects _ _ _ _ _ Hr).
  - rewrite (router_PUT _ _ _ _ _ Hu), snd_lift. apply edit_job_users.
  - by rewrite (router_DELETE_rejects _ _ _ _ Hr).
  - rewrite (router_DELETE _ _ _ _ Hu), snd_lift. apply delete_job_users.
Qed.

(** Each handler writes only on the path that returns. *)
Lemma place_job_Raise body u db e :
  fst (place_job body u db) = Raise e → snd (place_job body u db) = db.
Proof. unfold place_job. by destruct (User.is_company u). Qed.

Lemma edit_job_Raise job_id body u db e :
  fst (edit_job job_id body u db) = Raise e → snd (edit_job job_id body u db) = db.
Proof.
  destruct (jobs db !! job_id) as [old|] eqn:Hold.
  - rewrite (edit_job_found _ _ _ _ _ Hold). by destruct (py_eq _ _).
  - by rewrite (edit_job_absent _ _ _ _ Hold).
Qed.

Lemma delete_job_Raise job_id u db e :
  fst (delete_job job_id u db) = Raise e → snd (delete_job job_id u db) = db.
Proof.
  destruct (jobs db !! job_id) as [old|] eqn:Hold.
  - rewrite (delete_job_found _ _ _ _ Hold). by destruct (_ && _).
  - rewrite (delete_job_absent _ _ _ Hold). by destruct (User.is_company u).
Qed.

(** What a successful DELETE tells about the caller and the session. *)
Lemma delete_job_Return job_id u db r db' :
  delete_job job_id u db = (Return r, db') →
  User.is_company u = true
  ∧ (∃ old, jobs db !! job_id = Some old ∧ Job.user_id old = Some (User.id u))
  ∧ db' = {| users := users db; jobs := delete job_id (jobs db);
             next_id := next_id db |}.
Proof.
  destruct (jobs db !! job_id) as [old|] eqn:Hold.
  - rewrite (delete_job_found _ _ _ _ Hold).
    destruct (User.is_company u); [|done]. simpl.
    destruct (py_eq _ _) eqn:Hown; [|done].
    apply py_eq_true in Hown. intros [= <- <-]. eauto.
  - rewrite (delete_job_absent _ _ _ Hold). by destruct (User.is_company u).
Qed.

(** X1: the outcome of [get_current_user] depends on the token only
    through its subject claim: two tokens with the same subject (or both
    without one) resolve to the same user or are rejected alike, whatever
    else their payloads hold. *)
Theorem get_current_user_only_subject (t1 t2 : string) (db : Session) :
  subject t1 = subject t2 →
  get_current_user t1 db = get_current_user t2 db.
Proof.
  unfold subject, get_current_user.
  destruct (decode_token t1) as [p1|], (decode_token t2) as [p2|]; simpl.
  - destruct (p1 !! "sub"), (p2 !! "sub"); intros [=]; by subst.
  - by destruct (p1 !! "sub").
  - by destruct (p2 !! "sub").
  - done.
Qed.

(** X2: a request that ends in an error of any kind -- 403, 405, 400 or
    an unhandled fault -- leaves the session exactly as it was: every
    route writes only on the path that returns. *)
Theorem router_error_leaves_session (req : request) (db : Session) (e : exn) :
  fst (router req db) = Raise e → snd (router req db) = db.
Proof.
  destruct req as [auth body | auth | auth job_id body | auth job_id];
    [| done | |];
    destruct (Depends_run auth db) as [[e0 Hr] | (tk & u & _ & _ & Hu & _)].
  - by rewrite (router_POST_rejects _ _ _ _ Hr).
  - rewrite (router_POST _ _ _ _ Hu), snd_lift, fst_lift. apply place_job_Raise.
  - by rewrite (router_PUT_rejects _ _ _ _ _ Hr).
  - rewrite (router_PUT _ _ _ _ _ Hu), snd_lift, fst_lift. apply edit_job_Raise.
  - by rewrite (router_DELETE_rejects _ _ _ _ Hr).
  - rewrite (router_DELETE _ _ _ _ Hu), snd_lift, fst_lift. apply delete_job_Raise.
Qed.


(** What the dependency raises is the bearer step's exception or the
    credentials exception. *)
Lemma Depends_Raise authorization db e :
  fst (Depends_get_current_user authorization db) = Raise e →
  JWTBearer authorization = Raise e ∨ e = cred_exception.
Proof.
  unfold Depends_get_current_user.
  destruct (JWTBearer authorization) as [token|e']; [|intros [= ->]; by left].
  intros H. right. by apply (get_current_user_Raise token db).
Qed.

(** X4: the unhandled fault (status 500) is reached exactly when an
    authenticated user addresses a job that is not persisted -- any such
    user for PUT, only a company for DELETE.  A request that fails
    authentication is refused before the lookup is ever made, so it
    answers 500 only if the bearer dependency itself does. *)
Theorem router_fault_iff (authorization : option string) (job_id : Z)
    (body : SJob.t) (db : Session) :
  (status_of (fst (router (PUT_job authorization job_id body) db)) = 500
   ↔ (∃ e, JWTBearer authorization = Raise e ∧ status_of (@Raise response e) = 500)
     ∨ ∃ u, Depends_get_current_user authorization db = (Return u, db)
            ∧ jobs db !! job_id = None)
  ∧ (status_of (fst (router (DELETE_job authorization job_id) db)) = 500
     ↔ (∃ e, JWTBearer authorization = Raise e ∧ status_of (@Raise response e) = 500)
       ∨ ∃ u, Depends_get_current_user authorization db = (Return u, db)
              ∧ User.is_company u = true ∧ jobs db !! job_id = None)
  ∧ (∀ e, Depends_get_current_user authorization db = (Raise e, db) →
       router (PUT_job authorization job_id body) db = (Raise e, db)
       ∧ router (DELETE_job authorization job_id) db = (Raise e, db)).
Proof.
  split_and!;
    [| |intros e Hr; by rewrite (router_PUT_rejects _ _ _ _ _ Hr),
                          (router_DELETE_rejects _ _ _ _ Hr)].
  - destruct (Depends_run authorization db) as [[e0 Hr] | (tk & u & Hb & _ & Hu & _)].
    + rewrite (router_PUT_rejects _ _ _ _ _ Hr). simpl. split.
      * intros H500. left. exists e0. split; [|done].
        destruct (Depends_Raise authorization db e0) as [?| ->];
          [by rewrite Hr | done | done].
      * intros [(e & He & H500) | (u & Hu & _)]; [|by rewrite Hr in Hu].
        assert (Depends_get_current_user authorization db = (Raise e, db)) as Hr'
          by (unfold Depends_get_current_user; by rewrite He).
        rewrite Hr in Hr'. by injection Hr' as ->.
    + rewrite (router_PUT _ _ _ _ _ Hu), status_lift. split.
      * intros H500. right. exists u. split; [done|].
        destruct (jobs db !! job_id) as [old|] eqn:Hold; [|done].
        rewrite (edit_job_found _ _ _ _ _ Hold) in H500.
        by destruct (py_eq _ _).
      * intros [(e & He & _) | (v & _ & Hno)]; [by rewrite Hb in He|].
        by rewrite (edit_job_absent _ _ _ _ Hno).
  - destruct (Depends_run authorization db) as [[e0 Hr] | (tk & u & Hb & _ & Hu & _)].
    + rewrite (router_DELETE_rejects _ _ _ _ Hr). simpl. split.
      * intros H500. left. exists e0. split; [|done].
        destruct (Depends_Raise authorization db e0) as [?| ->];
          [by rewrite Hr | done | done].
      * intros [(e & He & H500) | (u & Hu & _)]; [|by rewrite Hr in Hu].
        assert (Depends_get_current_user authorization db = (Raise e, db)) as Hr'
          by (unfold Depends_get_current_user; by rewrite He).
        rewrite Hr in Hr'. by injection Hr' as ->.
    + rewrite (router_DELETE _ _ _ _ Hu), status_lift. split.
      * intros H500. right. exists u. split; [done|].
        destruct (jobs db !! job_id) as [old|] eqn:Hold.
        -- rewrite (delete_job_found _ _ _ _ Hold) in H500. by destruct (_ && _).
        -- rewrite (delete_job_absent _ _ _ Hold) in H500.
           by destruct (User.is_company u).
      * intros [(e & He & _) | (v & Hv & Hc & Hno)]; [by rewrite Hb in He|].
        rewrite Hu in Hv. injection Hv as <-.
        by rewrite (delete_job_absent _ _ _ Hno), Hc.
Qed.

(** X5: ownership alone lets a user edit, but not delete: for a persisted
    job whose owner is not a company, PUT by the owner updates the row and
    answers 200, while DELETE by the same owner is refused with 400 and
    the row stays. *)
Theorem owner_not_company_edits_not_deletes (job_id : Z) (body : SJob.t)
    (u : User.t) (db : Session) (old : Job.t) :
  jobs db !! job_id = Some old →
  Job.user_id old = Some (User.id u) →
  User.is_company u = false →
  status_of (fst (edit_job job_id body u db)) = 200
  ∧ jobs (snd (edit_job job_id body u db)) !! job_id
    = Some (stored (Job.id old) (Some (User.id u)) body)
  ∧ delete_job job_id u db
    = (Raise (HTTPException 400 (delete_job_detail u job_id)), db).
Proof.
  intros Hold Hown Hc.
  rewrite (edit_job_found _ _ _ _ _ Hold), (delete_job_found _ _ _ _ Hold), Hc.
  assert (py_eq (Job.user_id old) (User.id u) = true) as -> by by apply py_eq_true.
  simpl. rewrite lookup_insert_eq, Hown. done.
Qed.

(** X6: for a user who is not a company the answer of DELETE is the same
    whatever the session holds -- the job may exist or not, be theirs or
    not: always the same 400 and message, and nothing is written. *)
Theorem delete_job_hides_existence (job_id : Z) (u : User.t)
    (db1 db2 : Session) :
  User.is_company u = false →
  fst (delete_job job_id u db1) = fst (delete_job job_id u db2)
  ∧ fst (delete_job job_id u db1)
    = Raise (HTTPException 400 (delete_job_detail u job_id))
  ∧ snd (delete_job job_id u db1) = db1.
Proof.
  intros Hc. unfold delete_job. run. by rewrite Hc.
Qed.

(** X7: DELETE is not repeatable: once a company has deleted its job, the
    same request against the resulting session no longer finds the row
    and ends in the unhandled attribute fault (status 500), neither in
    200 nor in the 400 whose message mentions a job that is not found. *)
Theorem delete_twice_faults (job_id : Z) (u : User.t) (db db' : Session)
    (r : SRemoveJobReport.t) :
  delete_job job_id u db = (Return r, db') →
  delete_job job_id u db' = (Raise (AttributeError "NoneType" "user_id"), db')
  ∧ status_of (fst (delete_job job_id u db')) = 500.
Proof.
  intros H. apply delete_job_Return in H as (Hc & _ & ->).
  rewrite delete_job_absent by apply lookup_delete_eq.
  by rewrite Hc.
Qed.

(** X8: the last PUT wins: after a successful edit, a second edit of the
    same job by the same user gives the result and the session it would
    have given without the first; in particular repeating an edit changes
    nothing. *)
Theorem edit_job_last_write_wins (job_id : Z) (b1 b2 : SJob.t) (u : User.t)
    (db db1 : Session) (s1 : SJob.t) :
  edit_job job_id b1 u db = (Return s1, db1) →
  edit_job job_id b2 u db1 = edit_job job_id b2 u db
  ∧ edit_job job_id b1 u db1 = (Return s1, db1).
Proof.
  destruct (jobs db !! job_id) as [old|] eqn:Hold.
  - rewrite !(edit_job_found _ _ _ _ _ Hold).
    destruct (py_eq (Job.user_id old) (User.id u)) eqn:Hown; [|done].
    intros [= <- <-].
    set (row1 := stored (Job.id old) (Job.user_id old) b1).
    assert (∀ b, edit_job job_id b u
                   {| users := users db; jobs := <[job_id := row1]> (jobs db);
                      next_id := next_id db |}
                 = (Return (SJob.from_orm (stored (Job.id old) (Job.user_id old) b)),
                    {| users := users db;
                       jobs := <[job_id := stored (Job.id old) (Job.user_id old) b]> (jobs db);
                       next_id := next_id db |})) as Hagain.
    { intros b.
      rewrite (edit_job_found job_id b u _ row1) by apply lookup_insert_eq.
      simpl. rewrite Hown. by rewrite insert_insert_eq. }
    by rewrite !Hagain.
  - by rewrite (edit_job_absent _ _ _ _ Hold).
Qed.

(** X9: whoever creates a job may afterwards edit and delete it, and
    nobody with another id may: right after a successful POST by [u], PUT
    and DELETE on the generated id answer 200 for [u], and 405 and 400
    for every user whose id differs. *)
Theorem creator_may_edit_and_delete (body body' : SJob.t) (u v : User.t)
    (db db' : Session) (s : SJob.t) :
  place_job body u db = (Return s, db') →
  ∃ job_id,
    SJob.id s = Some job_id
    ∧ status_of (fst (edit_job job_id body' u db')) = 200
    ∧ status_of (fst (delete_job job_id u db')) = 200
    ∧ (User.id v ≠ User.id u →
       status_of (fst (edit_job job_id body' v db')) = 405
       ∧ status_of (fst (delete_job job_id v db')) = 400).
Proof.
  unfold place_job. destruct (User.is_company u) eqn:Hc; [|done].
  run. intros [= <- <-]. exists (next_id db). split; [done|].
  set (row := stored (next_id db) (Some (User.id u)) body).
  set (db' := {| users := users db; jobs := <[next_id db := row]> (jobs db);
                 next_id := next_id db + 1 |}).
  assert (jobs db' !! next_id db = Some row) as Hrow by apply lookup_insert_eq.
  rewrite !(edit_job_found _ _ _ _ _ Hrow), !(delete_job_found _ _ _ _ Hrow), Hc.
  simpl. rewrite bool_decide_true by done. split_and!; try done.
  intros Hne. rewrite bool_decide_false by congruence.
  by rewrite andb_false_r.
Qed.

(** X10: no request changes whom a token authenticates: the job routes
    never write the [users] table, so after any request every token
    resolves to the same user, or is rejected, exactly as before it. *)
Theorem authentication_stable (req : request) (authorization : option string)
    (token : string) (db : Session) :
  fst (get_current_user token (snd (router req db)))
  = fst (get_current_user token db)
  ∧ fst (Depends_get_current_user authorization (snd (router req db)))
    = fst (Depends_get_current_user authorization db).
Proof.
  split; [apply get_current_user_users | apply Depends_users]; apply router_users.
Qed.

(** X11: the listing follows the writes: right after a successful POST the
    returned job is in the list GET gives, and -- with rows stored under
    their own identifiers -- right after a successful DELETE no listed job
    carries the deleted id. *)
Theorem listing_reflects_writes (u : User.t) (db db' : Session) :
  (∀ body s, place_job body u db = (Return s, db') →
     ∃ l, read_vacancies db' = (Return l, db') ∧ s ∈ l)
  ∧ (∀ job_id r, wf db → delete_job job_id u db = (Return r, db') →
     ∃ l, read_vacancies db' = (Return l, db')
          ∧ ∀ s, s ∈ l → SJob.id s ≠ Some job_id).
Proof.
  split.
  - intros body s. unfold place_job. destruct (User.is_company u); [|done].
    run. intros [= <- <-]. eexists. split; [done|]. simpl.
    apply list_elem_of_fmap. eexists. split; [done|].
    apply list_elem_of_fmap. eexists (next_id db, _). split; [done|].
    apply elem_of_map_to_list, lookup_insert_eq.
  - intros job_id r Hwf H. apply delete_job_Return in H as (_ & _ & ->).
    eexists. split; [done|]. simpl. intros s Hs.
    apply list_elem_of_fmap in Hs as (row & -> & Hrow).
    apply list_elem_of_fmap in Hrow as ([k row'] & -> & Hk).
    apply elem_of_map_to_list in Hk. simpl.
    destruct (decide (k = job_id)) as [->|Hne].
    + by rewrite lookup_delete_eq in Hk.
    + rewrite lookup_delete_ne in Hk by done.
      destruct (Hwf k row' Hk) as [-> _]. congruence.
Qed.

End Routes.

(** ** The statements at work on the sample session *)

Lemma sample_db_wf : wf sample_db.
Proof.
  intros k row Hk.
  change (jobs sample_db) with ({[ 7 := job7 ]} : gmap Z Job.t) in Hk.
  apply lookup_singleton_Some in Hk as [<- <-].
  split; [reflexivity | reflexivity].
Qed.

Lemma sample_db_owner_inv : owner_inv sample_db.
Proof.
  intros k row Hk.
  change (jobs sample_db) with ({[ 7 := job7 ]} : gmap Z Job.t) in Hk.
  apply lookup_singleton_Some in Hk as [<- <-].
  exists company_a. split_and!; [apply list_elem_of_here | reflexivity | reflexivity].
Qed.



(** C2, the claim as first stated: job 99 is not persisted, yet DELETE by
    a user who is not a company ends in a plain HTTP 400, not in a fault
    from an attribute access. *)
Lemma delete_absent_job_counterexample :
  jobs sample_db !! 99 = None
  ∧ delete_job 99 person_b sample_db
    = (Raise (HTTPException 400 (delete_job_detail person_b 99)), sample_db)
  ∧ ∀ obj attr, fst (delete_job 99 person_b sample_db) ≠ Raise (AttributeError obj attr).
Proof. split_and!; [reflexivity | reflexivity | discriminate]. Qed.

Lemma absent_job_unguarded_witness :
  jobs sample_db !! 99 = None
  ∧ edit_job 99 edited_body company_a sample_db
    = (Raise (AttributeError "NoneType" "user_id"), sample_db)
  ∧ delete_job 99 company_a sample_db
    = (Raise (AttributeError "NoneType" "user_id"), sample_db)
  ∧ delete_job 99 person_b sample_db
    = (Raise (HTTPException 400 (delete_job_detail person_b 99)), sample_db).
Proof.
  assert (jobs sample_db !! 99 = None) as Hno by reflexivity.
  destruct (absent_job_unguarded 99 edited_body company_a sample_db Hno)
    as (He & Hd & _).
  destruct (absent_job_unguarded 99 edited_body person_b sample_db Hno)
    as (_ & _ & Hd' & _).
  split_and!; [exact Hno | exact He | apply Hd; reflexivity | apply Hd'; reflexivity].
Defined.

Lemma place_job_company_gate_witness :
  place_job backend_engineer person_b sample_db
  = (Raise (HTTPException 405
       "Пользователю B, не являющемуся компанией, не разрешено создавать вакансии"),
     sample_db)
  ∧ fst (place_job backend_engineer company_a sample_db)
    = Return (SJob.from_orm (stored 8 (Some 1) backend_engineer))
  ∧ jobs (snd (place_job backend_engineer company_a sample_db)) !! 8
    = Some (stored 8 (Some 1) backend_engineer).
Proof.
  destruct (place_job_company_gate backend_engineer person_b sample_db) as [Hno _].
  destruct (place_job_company_gate backend_engineer company_a sample_db) as [_ Hyes].
  destruct (Hno eq_refl) as [Hno' _]. destruct (Hyes eq_refl) as [Hyes' _].
  split_and!; [exact Hno' | by rewrite Hyes' | rewrite Hyes'; reflexivity].
Defined.

Lemma edit_job_owner_gate_witness :
  edit_job 7 edited_body person_b sample_db
  = (Raise (HTTPException 405
       "Пользователь B не является автором вакансии 7, поэтому не может ее редактировать"),
     sample_db)
  ∧ fst (edit_job 7 edited_body company_a sample_db)
    = Return (SJob.from_orm (stored 7 (Some 1) edited_body))
  ∧ status_of (fst (edit_job 7 edited_body company_a sample_db)) = 200.
Proof.
  assert (jobs sample_db !! 7 = Some job7) as Hold by reflexivity.
  destruct (edit_job_owner_gate 7 edited_body person_b sample_db job7 Hold) as [Hno _].
  destruct (edit_job_owner_gate 7 edited_body company_a sample_db job7 Hold) as [_ Hyes].
  destruct (Hno ltac:(discriminate)) as [Hno' _].
  destruct (Hyes eq_refl) as [Hyes' Hst].
  split_and!; [exact Hno' | by rewrite Hyes' | exact Hst].
Defined.

Lemma edit_job_frame_witness :
  ∃ old row,
    jobs sample_db !! 7 = Some old
    ∧ jobs (snd (edit_job 7 edited_body company_a sample_db)) !! 7 = Some row
    ∧ Job.id row = Job.id old ∧ Job.user_id row = Job.user_id old
    ∧ Job.is_active old = true ∧ Job.is_active row = false.
Proof.
  destruct (edit_job_frame 7 edited_body company_a sample_db
              (snd (edit_job 7 edited_body company_a sample_db))
              (SJob.from_orm (stored 7 (Some 1) edited_body)) eq_refl)
    as (old & row & Hold & Hrow & Hid & Hown & _ & _ & _ & _ & Hact & _).
  exists old, row. split_and!; try done.
  assert (old = job7) as -> by (assert (jobs sample_db !! 7 = Some job7) by reflexivity; congruence).
  reflexivity.
Defined.

Lemma delete_job_by_owner_witness :
  fst (delete_job 7 company_a sample_db)
  = Return {| SRemoveJobReport.id := 7;
              SRemoveJobReport.message := "Вакансия 7 удалена" |}
  ∧ jobs (snd (delete_job 7 company_a sample_db)) !! 7 = None.
Proof.
  destruct (delete_job_by_owner 7 company_a sample_db job7 eq_refl eq_refl eq_refl)
    as (Hr & _ & Hgone & _).
  split; [exact Hr | exact Hgone].
Defined.



Lemma get_by_id_after_add_witness :
  RepoJob.get_by_id 8 (snd (RepoJob.add (convert_job_schema_to_dm 1 backend_engineer) sample_db))
  = (Return (Some (stored 8 (Some 1) backend_engineer)),
     snd (RepoJob.add (convert_job_schema_to_dm 1 backend_engineer) sample_db)).
Proof.
  destruct (get_by_id_after_add backend_engineer company_a sample_db
              (snd (RepoJob.add (convert_job_schema_to_dm 1 backend_engineer) sample_db))
              (stored 8 (Some 1) backend_engineer) eq_refl) as [H _].
  exact H.
Defined.

Lemma read_vacancies_public_witness :
  ∃ l,
    router sample_decode sample_bearer (GET_jobs (Some "tok-ghost")) sample_db
    = (Return (RespJobs l), sample_db)
    ∧ status_of (fst (router sample_decode sample_bearer
                        (POST_job (Some "tok-ghost") backend_engineer) sample_db)) = 403
    ∧ status_of (fst (router sample_decode sample_bearer
                        (PUT_job (Some "tok-ghost") 7 backend_engineer) sample_db)) = 403
    ∧ status_of (fst (router sample_decode sample_bearer
                        (DELETE_job (Some "tok-ghost") 7) sample_db)) = 403.
Proof.
  destruct (read_vacancies_public sample_decode sample_bearer (Some "tok-ghost") sample_db)
    as (l & Hl & _ & _ & H & _).
  exists l. split; [exact Hl|].
  apply (H "tok-ghost" eq_refl).
  right; right. exists {[ "sub" := "ghost@example" ]}, "ghost@example".
  split_and!; [reflexivity | reflexivity |].
  intros u Hu. simpl in Hu.
  apply elem_of_cons in Hu as [-> | Hu]; [discriminate|].
  apply elem_of_cons in Hu as [-> | Hu]; [discriminate|].
  by apply elem_of_nil in Hu.
Defined.

Lemma created_job_owner_witness :
  ∃ u, get_current_user sample_decode "tok-a" sample_db = (Return u, sample_db)
       ∧ User.is_company u = true
       ∧ jobs (snd (router sample_decode sample_bearer
                      (POST_job (Some "tok-a") backend_engineer) sample_db)) !! 8
         = Some (stored 8 (Some (User.id u)) backend_engineer).
Proof.
  destruct (created_job_owner sample_decode sample_bearer (Some "tok-a")
              backend_engineer sample_db
              (snd (router sample_decode sample_bearer
                      (POST_job (Some "tok-a") backend_engineer) sample_db))
              (SJob.from_orm (stored 8 (Some 1) backend_engineer))) as [H _].
  destruct (H eq_refl) as (token & u & Hb & Hu & _ & Hc & _ & _ & Hrow).
  injection Hb as <-.
  exists u. split_and!; [exact Hu | exact Hc | exact Hrow].
Defined.

(** ** The further properties at work on the sample sessions *)

Lemma get_current_user_only_subject_witness :
  subject sample_decode2 "tok-a" = subject sample_decode2 "tok-a2"
  ∧ get_current_user sample_decode2 "tok-a" sample_db
    = get_current_user sample_decode2 "tok-a2" sample_db
  ∧ get_current_user sample_decode2 "tok-a2" sample_db
    = (Return company_a, sample_db).
Proof.
  split; [reflexivity|]. split; [|reflexivity].
  apply (get_current_user_only_subject sample_decode2 "tok-a" "tok-a2").
  reflexivity.
Defined.

Lemma router_error_leaves_session_witness :
  fst (router sample_decode sample_bearer (PUT_job (Some "tok-b") 7 edited_body) sample_db)
  = Raise (HTTPException 405 (edit_job_detail person_b 7))
  ∧ snd (router sample_decode sample_bearer (PUT_job (Some "tok-b") 7 edited_body) sample_db)
    = sample_db.
Proof.
  split; [reflexivity|].
  apply (router_error_leaves_session sample_decode sample_bearer
           (PUT_job (Some "tok-b") 7 edited_body) sample_db
           (HTTPException 405 (edit_job_detail person_b 7))).
  reflexivity.
Defined.

Lemma router_fault_iff_witness :
  status_of (fst (router sample_decode sample_bearer
                    (PUT_job (Some "tok-b") 99 edited_body) sample_db)) = 500
  ∧ status_of (fst (router sample_decode sample_bearer
                      (DELETE_job (Some "tok-a") 99) sample_db)) = 500
  ∧ router sample_decode sample_bearer (PUT_job None 99 edited_body) sample_db
    = (Raise (HTTPException 403 "Not authenticated"), sample_db).
Proof.
  destruct (router_fault_iff sample_decode sample_bearer (Some "tok-b") 99
              edited_body sample_db) as (Hput & _ & _).
  destruct (router_fault_iff sample_decode sample_bearer (Some "tok-a") 99
              edited_body sample_db) as (_ & Hdel & _).
  destruct (router_fault_iff sample_decode sample_bearer None 99
              edited_body sample_db) as (_ & _ & Hrej).
  split_and!.
  - apply Hput. right. exists person_b. split; reflexivity.
  - apply Hdel. right. exists company_a. split_and!; reflexivity.
  - apply (Hrej (HTTPException 403 "Not authenticated")). reflexivity.
Defined.

Lemma owner_not_company_edits_not_deletes_witness :
  status_of (fst (edit_job 9 edited_body person_b sample_db2)) = 200
  ∧ jobs (snd (edit_job 9 edited_body person_b sample_db2)) !! 9
    = Some (stored 9 (Some 2) edited_body)
  ∧ delete_job 9 person_b sample_db2
    = (Raise (HTTPException 400 (delete_job_detail person_b 9)), sample_db2).
Proof.
  apply (owner_not_company_edits_not_deletes 9 edited_body person_b sample_db2 job9);
    reflexivity.
Defined.

Lemma delete_job_hides_existence_witness :
  jobs sample_db !! 9 = None
  ∧ jobs sample_db2 !! 9 = Some job9
  ∧ fst (delete_job 9 person_b sample_db) = fst (delete_job 9 person_b sample_db2).
Proof.
  split; [reflexivity|]. split; [reflexivity|].
  apply (delete_job_hides_existence 9 person_b sample_db sample_db2). reflexivity.
Defined.

Lemma delete_twice_faults_witness :
  status_of (fst (delete_job 7 company_a sample_db)) = 200
  ∧ status_of (fst (delete_job 7 company_a (snd (delete_job 7 company_a sample_db)))) = 500.
Proof.
  split; [reflexivity|].
  apply (delete_twice_faults 7 company_a sample_db
           (snd (delete_job 7 company_a sample_db))
           {| SRemoveJobReport.id := 7;
              SRemoveJobReport.message := "Вакансия 7 удалена" |}).
  reflexivity.
Defined.

Lemma edit_job_last_write_wins_witness :
  edit_job 7 backend_engineer company_a (snd (edit_job 7 edited_body company_a sample_db))
  = edit_job 7 backend_engineer company_a sample_db
  ∧ jobs (snd (edit_job 7 backend_engineer company_a
                 (snd (edit_job 7 edited_body company_a sample_db)))) !! 7
    = Some (stored 7 (Some 1) backend_engineer).
Proof.
  destruct (edit_job_last_write_wins 7 edited_body backend_engineer company_a sample_db
              (snd (edit_job 7 edited_body company_a sample_db))
              (SJob.from_orm (stored 7 (Some 1) edited_body)) eq_refl) as [H _].
  split; [exact H | rewrite H; reflexivity].
Defined.

Lemma creator_may_edit_and_delete_witness :
  ∃ job_id,
    SJob.id (SJob.from_orm (stored 8 (Some 1) backend_engineer)) = Some job_id
    ∧ status_of (fst (edit_job job_id edited_body company_a
                        (snd (place_job backend_engineer company_a sample_db)))) = 200
    ∧ status_of (fst (delete_job job_id person_b
                        (snd (place_job backend_engineer company_a sample_db)))) = 400.
Proof.
  destruct (creator_may_edit_and_delete backend_engineer edited_body company_a person_b
              sample_db (snd (place_job backend_engineer company_a sample_db))
              (SJob.from_orm (stored 8 (Some 1) backend_engineer)) eq_refl)
    as (job_id & Hid & Hedit & _ & Hother).
  exists job_id. split_and!; [exact Hid | exact Hedit |].
  apply Hother. discriminate.
Defined.

Lemma listing_reflects_writes_witness :
  (∃ l, read_vacancies (snd (place_job backend_engineer company_a sample_db))
        = (Return l, snd (place_job backend_engineer company_a sample_db))
        ∧ SJob.from_orm (stored 8 (Some 1) backend_engineer) ∈ l)
  ∧ (∃ l, read_vacancies (snd (delete_job 7 company_a sample_db))
          = (Return l, snd (delete_job 7 company_a sample_db))
          ∧ ∀ s, s ∈ l → SJob.id s ≠ Some 7).
Proof.
  split.
  - apply (proj1 (listing_reflects_writes company_a sample_db
                    (snd (place_job backend_engineer company_a sample_db)))
             backend_engineer). reflexivity.
  - apply (proj2 (listing_reflects_writes company_a sample_db
                    (snd (delete_job 7 company_a sample_db)))
             7 {| SRemoveJobReport.id := 7;
                  SRemoveJobReport.message := "Вакансия 7 удалена" |}).
    + exact sample_db_wf.
    + reflexivity.
Defined.

Lemma router_preserves_wf_witness :
  wf sample_db
  ∧ wf (snd (router sample_decode sample_bearer
               (POST_job (Some "tok-a") backend_engineer) sample_db))
  ∧ next_id (snd (router sample_decode sample_bearer
                    (POST_job (Some "tok-a") backend_engineer) sample_db))
    = 9.
Proof.
  split; [exact sample_db_wf|]. split; [|reflexivity].
  apply (router_preserves_wf sample_decode sample_bearer
           (POST_job (Some "tok-a") backend_engineer) sample_db).
  exact sample_db_wf.
Defined.
